(** * Super Metroid Memory Battle: board, inventory and combat

    A shallow embedding of [super_metroid_tiled.py]: the tile grid, the
    inventory dictionary, the reveal rules of [Game.handle_click], the
    tick-driven combat of [Game.update] and the board generator
    [Game.populate_grid].  Rendering and sprite loading are left out.

    Conventions.
    - Python integers are [Z].  Dictionaries keyed by strings are
      [gmap string _]; [d.get(k, v)] is a lookup with a default and [d[k]]
      raises [KeyError] on a missing key.
    - [self.grid] is a list of rows, [self.grid[y][x]].
    - A method that can raise returns in [Res]; the mutable [Game] object
      is passed in and out explicitly.
    - The module-level [random] generator is a tape of draws in [0,1)
      together with the position of the next draw. *)

From Stdlib Require Import ZArith QArith Qround Lia.
From stdpp Require Import base option list strings gmap.

Local Open Scope string_scope.
Local Open Scope list_scope.
Local Open Scope Z_scope.

(** ** Constants *)

Definition GRID_SIZE : Z := 10.
Definition TILE_SIZE : Z := 64.
Definition GRID_START_X : Z := 20.
Definition GRID_START_Y : Z := 90.

(** ** Enumerations *)

Inductive TileType := EMPTY | ITEM | BOSS | ENEMY.
Inductive AreaType :=
  CRATERIA | BRINSTAR | NORFAIR | MARIDIA | TOURIAN | WRECKED_SHIP | CERES.
Inductive TileState := FACE_DOWN | FACE_UP | DESTROYED.

#[global] Instance TileType_eq_dec : EqDecision TileType.
Proof. solve_decision. Defined.
#[global] Instance AreaType_eq_dec : EqDecision AreaType.
Proof. solve_decision. Defined.
#[global] Instance TileState_eq_dec : EqDecision TileState.
Proof. solve_decision. Defined.

(** ** Exceptions *)

(** [FuelExhausted] is no Python exception: it marks the bound the model
    puts on the one [while] loop whose length is not fixed by its text
    ([flood_fill_area]). *)
Inductive Exn := KeyError (key : string) | IndexError | AttributeError | FuelExhausted.

Inductive Res (A : Type) : Type :=
  | Ok (a : A)
  | Raise (e : Exn).
Arguments Ok {A} a.
Arguments Raise {A} e.

Definition res_bind {A B : Type} (m : Res A) (f : A -> Res B) : Res B :=
  match m with Ok a => f a | Raise e => Raise e end.

Notation "x <- m ; k" := (res_bind m (fun x => k))
  (at level 20, m at level 100, k at level 200, only parsing).
Notation "' p <- m ; k" := (res_bind m (fun x => let 'p := x in k))
  (at level 20, p pattern, m at level 100, k at level 200, only parsing).

Definition returns {A} (m : Res A) : Prop := exists a, m = Ok a.

(** ** Tiles *)

Record Tile := mkTile {
  tile_x : Z;
  tile_y : Z;
  tile_type : TileType;
  item_id : string;
  area : AreaType;
  state : TileState;
  health : Z;
  max_health : Z;
  frozen : bool;
}.

(** [Tile.__init__] *)
Definition new_tile (x y : Z) (ty : TileType) (id : string) (a : AreaType) : Tile :=
  mkTile x y ty id a FACE_DOWN 0 0 false.

Definition set_state (s : TileState) (t : Tile) : Tile :=
  mkTile (tile_x t) (tile_y t) (tile_type t) (item_id t) (area t) s
         (health t) (max_health t) (frozen t).
Definition set_health (h : Z) (t : Tile) : Tile :=
  mkTile (tile_x t) (tile_y t) (tile_type t) (item_id t) (area t) (state t)
         h (max_health t) (frozen t).
Definition set_max_health (h : Z) (t : Tile) : Tile :=
  mkTile (tile_x t) (tile_y t) (tile_type t) (item_id t) (area t) (state t)
         (health t) h (frozen t).
Definition set_frozen (b : bool) (t : Tile) : Tile :=
  mkTile (tile_x t) (tile_y t) (tile_type t) (item_id t) (area t) (state t)
         (health t) (max_health t) b.

(** ** Inventory values

    The inventory dictionary holds a [bool] for a unique item and an [int]
    for a consumable.  [isinstance(v, bool)] tells them apart. *)

Inductive PyVal := PyBool (b : bool) | PyInt (n : Z).

Definition isinstance_bool (v : PyVal) : bool :=
  match v with PyBool _ => true | PyInt _ => false end.

(** Truth value of [v] in an [if]. *)
Definition truthy (v : PyVal) : bool :=
  match v with PyBool b => b | PyInt n => negb (n =? 0) end.

(** Value of [v] as an operand of [*]; [True] is [1]. *)
Definition as_int (v : PyVal) : Z :=
  match v with PyBool b => if b then 1 else 0 | PyInt n => n end.

(** [inventory.get(k, False)] used as a condition. *)
Definition inv_flag (inv : gmap string PyVal) (k : string) : bool :=
  match inv !! k with Some v => truthy v | None => false end.

(** [inventory.get(k, 0)] used as a number. *)
Definition inv_count (inv : gmap string PyVal) (k : string) : Z :=
  match inv !! k with Some v => as_int v | None => 0 end.

(** ** Combat log lines

    One constructor per message of the source; the text of a line is
    determined by the constructor and its arguments. *)

Inductive LogMsg :=
  | MsgArrived | MsgObjective | MsgNewGame
  | MsgMaridiaBlocked
  | MsgAlreadyHave (id : string)
  | MsgCollected (id : string)
  | MsgCollectedTotal (id : string) (total : Z)
  | MsgEnergyTank (max : Z)
  | MsgRevealedBoss (id : string) (hp : Z)
  | MsgRevealedEnemy (id : string) (hp : Z)
  | MsgHeat
  | MsgGameOver
  | MsgXray (id : string)
  | MsgXrayTotal (id : string) (total : Z)
  | MsgFrozenSkip (id : string)
  | MsgAttacks (id : string) (damage : Z)
  | MsgSamusAttacks (id : string) (damage : Z)
  | MsgFrozen (id : string)
  | MsgCeresSaved | MsgRidleyDown
  | MsgRidleyHealth (hp : Z)
  | MsgVictory
  | MsgDefeated (id : string) (points : Z)
  | MsgGrapple.

(** ** The game object *)

Record Game := mkGame {
  grid : list (list Tile);
  inventory : gmap string PyVal;
  revealed_tiles : list (Z * Z);
  player_energy : Z;
  max_energy : Z;
  combat_log : list LogMsg;
  boss_turn_timer : Z;
  player_attack_timer : Z;
  game_over : bool;
  victory : bool;
  score : Z;
  boss_defeats : gmap string Z;
  rng_tape : nat -> Q;
  rng_pos : nat;
}.

Definition set_grid (v : list (list Tile)) (g : Game) : Game :=
  mkGame v (inventory g) (revealed_tiles g) (player_energy g) (max_energy g)
    (combat_log g) (boss_turn_timer g) (player_attack_timer g) (game_over g)
    (victory g) (score g) (boss_defeats g) (rng_tape g) (rng_pos g).
Definition set_inventory (v : gmap string PyVal) (g : Game) : Game :=
  mkGame (grid g) v (revealed_tiles g) (player_energy g) (max_energy g)
    (combat_log g) (boss_turn_timer g) (player_attack_timer g) (game_over g)
    (victory g) (score g) (boss_defeats g) (rng_tape g) (rng_pos g).
Definition set_revealed_tiles (v : list (Z * Z)) (g : Game) : Game :=
  mkGame (grid g) (inventory g) v (player_energy g) (max_energy g)
    (combat_log g) (boss_turn_timer g) (player_attack_timer g) (game_over g)
    (victory g) (score g) (boss_defeats g) (rng_tape g) (rng_pos g).
Definition set_player_energy (v : Z) (g : Game) : Game :=
  mkGame (grid g) (inventory g) (revealed_tiles g) v (max_energy g)
    (combat_log g) (boss_turn_timer g) (player_attack_timer g) (game_over g)
    (victory g) (score g) (boss_defeats g) (rng_tape g) (rng_pos g).
Definition set_max_energy (v : Z) (g : Game) : Game :=
  mkGame (grid g) (inventory g) (revealed_tiles g) (player_energy g) v
    (combat_log g) (boss_turn_timer g) (player_attack_timer g) (game_over g)
    (victory g) (score g) (boss_defeats g) (rng_tape g) (rng_pos g).
Definition set_combat_log (v : list LogMsg) (g : Game) : Game :=
  mkGame (grid g) (inventory g) (revealed_tiles g) (player_energy g) (max_energy g)
    v (boss_turn_timer g) (player_attack_timer g) (game_over g)
    (victory g) (score g) (boss_defeats g) (rng_tape g) (rng_pos g).
Definition set_boss_turn_timer (v : Z) (g : Game) : Game :=
  mkGame (grid g) (inventory g) (revealed_tiles g) (player_energy g) (max_energy g)
    (combat_log g) v (player_attack_timer g) (game_over g)
    (victory g) (score g) (boss_defeats g) (rng_tape g) (rng_pos g).
Definition set_player_attack_timer (v : Z) (g : Game) : Game :=
  mkGame (grid g) (inventory g) (revealed_tiles g) (player_energy g) (max_energy g)
    (combat_log g) (boss_turn_timer g) v (game_over g)
    (victory g) (score g) (boss_defeats g) (rng_tape g) (rng_pos g).
Definition set_game_over (v : bool) (g : Game) : Game :=
  mkGame (grid g) (inventory g) (revealed_tiles g) (player_energy g) (max_energy g)
    (combat_log g) (boss_turn_timer g) (player_attack_timer g) v
    (victory g) (score g) (boss_defeats g) (rng_tape g) (rng_pos g).
Definition set_victory (v : bool) (g : Game) : Game :=
  mkGame (grid g) (inventory g) (revealed_tiles g) (player_energy g) (max_energy g)
    (combat_log g) (boss_turn_timer g) (player_attack_timer g) (game_over g)
    v (score g) (boss_defeats g) (rng_tape g) (rng_pos g).
Definition set_score (v : Z) (g : Game) : Game :=
  mkGame (grid g) (inventory g) (revealed_tiles g) (player_energy g) (max_energy g)
    (combat_log g) (boss_turn_timer g) (player_attack_timer g) (game_over g)
    (victory g) v (boss_defeats g) (rng_tape g) (rng_pos g).
Definition set_boss_defeats (v : gmap string Z) (g : Game) : Game :=
  mkGame (grid g) (inventory g) (revealed_tiles g) (player_energy g) (max_energy g)
    (combat_log g) (boss_turn_timer g) (player_attack_timer g) (game_over g)
    (victory g) (score g) v (rng_tape g) (rng_pos g).
Definition set_rng_pos (v : nat) (g : Game) : Game :=
  mkGame (grid g) (inventory g) (revealed_tiles g) (player_energy g) (max_energy g)
    (combat_log g) (boss_turn_timer g) (player_attack_timer g) (game_over g)
    (victory g) (score g) (boss_defeats g) (rng_tape g) v.

(** [Game.log_combat]: append, and drop the oldest line beyond 28. *)
Definition push_log (m : LogMsg) (log : list LogMsg) : list LogMsg :=
  let l := log ++ [m] in
  if 28 <? Z.of_nat (length l) then drop 1 l else l.

Definition log_combat (m : LogMsg) (g : Game) : Game :=
  set_combat_log (push_log m (combat_log g)) g.

(** [random.random()]: the next draw of the tape. *)
Definition random_random (g : Game) : Q * Game :=
  (rng_tape g (rng_pos g), set_rng_pos (S (rng_pos g)) g).

(** [r < c] on draws and thresholds. *)
Definition Qltb (r c : Q) : bool := negb (Qle_bool c r).

(** ** Entity tables *)

Definition enemy_damage : gmap string Z :=
  list_to_map [("geemer", 3); ("skree", 4); ("side_hopper", 5); ("ciser", 6)].

Definition boss_damage : gmap string Z :=
  list_to_map
    [("bomb_torizo", 5); ("spore_spawn", 8); ("kraid", 15); ("crocomire", 10);
     ("phantoon", 12); ("botwoon", 6); ("draygon", 20); ("gold_torizo", 18);
     ("ridley", 25); ("mother_brain_1", 30); ("mother_brain_2", 20);
     ("samus_ship", 3); ("ceres_station", 4); ("golden_four", 35)].

Definition item_scores : gmap string Z :=
  list_to_map
    [("missiles", 10); ("supers", 20); ("power_bombs", 30); ("energy_tank", 50);
     ("morph", 100); ("bomb", 100); ("hijump", 150); ("speed", 150);
     ("grapple", 200); ("xray", 200); ("spring", 150); ("space", 200);
     ("screw", 250); ("charge", 150); ("spazer", 200); ("wave", 200);
     ("ice", 200); ("plasma", 250); ("varia", 300); ("gravity", 400)].

Definition boss_scores : gmap string Z :=
  list_to_map
    [("bomb_torizo", 500); ("spore_spawn", 800); ("kraid", 2000);
     ("crocomire", 1200); ("phantoon", 1500); ("botwoon", 1000);
     ("draygon", 1800); ("gold_torizo", 1600); ("ridley", 2500);
     ("mother_brain_1", 5000); ("mother_brain_2", 3000); ("samus_ship", 800);
     ("golden_four", 4000)].

Definition enemy_scores : gmap string Z :=
  list_to_map [("geemer", 25); ("skree", 35); ("side_hopper", 50); ("ciser", 75)].

(** [d.get(k, dflt)] on a table of numbers. *)
Definition dict_get (d : gmap string Z) (k : string) (dflt : Z) : Z :=
  match d !! k with Some v => v | None => dflt end.

(** [Game.get_boss_damage] *)
Definition get_boss_damage (boss_id : string) : Z := dict_get boss_damage boss_id 10.

(** ** Player damage *)

(** [int(n * (num/den))] for the factors 1.25 and 1.5: both are exact binary
    fractions, so the floating-point product of an integer below 2^50 is
    exact and [int] cuts its fraction towards zero. *)
Definition int_mul (n num den : Z) : Z := Z.quot (n * num) den.

(** [Game.get_player_damage]; it logs a line when the grapple bonus applies. *)
Definition get_player_damage (boss_id : string) (g : Game) : Z * Game :=
  let inv := inventory g in
  let base_damage := 10 in
  let base_damage := if inv_flag inv "charge" then base_damage + 20 else base_damage in
  let base_damage := if inv_flag inv "ice" then base_damage + 20 else base_damage in
  let base_damage := if inv_flag inv "spazer" then base_damage + 30 else base_damage in
  let base_damage := if inv_flag inv "wave" then base_damage + 20 else base_damage in
  let base_damage := if inv_flag inv "plasma" then base_damage + 25 else base_damage in
  let base_damage := if inv_flag inv "screw" then base_damage + 50 else base_damage in
  let base_damage := if inv_flag inv "speed" then base_damage + 20 else base_damage in
  let base_damage := if inv_flag inv "bomb" then base_damage + 50 else base_damage in
  let missile_base := 10 in
  let base_damage := base_damage + inv_count inv "missiles" * missile_base in
  let base_damage := base_damage + inv_count inv "supers" * (missile_base * 2) in
  let base_damage := base_damage + inv_count inv "power_bombs" * (missile_base * 3) in
  let '(base_damage, g) :=
    if String.eqb boss_id "draygon" && inv_flag inv "grapple"
    then (base_damage * 3, log_combat MsgGrapple g)
    else (base_damage, g) in
  let base_damage := if inv_flag inv "varia" then int_mul base_damage 5 4 else base_damage in
  let base_damage := if inv_flag inv "gravity" then int_mul base_damage 3 2 else base_damage in
  (base_damage, g).

(** ** Grid access *)

Definition in_grid (x y : Z) : bool :=
  (0 <=? x) && (x <? GRID_SIZE) && (0 <=? y) && (y <? GRID_SIZE).

(** [self.grid[y][x]].  Every call site checks or iterates
    [0 <= x, y < GRID_SIZE] first, so no negative index (which Python would
    wrap around) is ever passed; such an index is an [IndexError] here,
    and [grid_set] leaves the grid alone on one. *)
Definition grid_get {A : Type} (gr : list (list A)) (x y : Z) : Res A :=
  if (x <? 0) || (y <? 0) then Raise IndexError else
  match gr !! Z.to_nat y with
  | Some row =>
      match row !! Z.to_nat x with
      | Some t => Ok t
      | None => Raise IndexError
      end
  | None => Raise IndexError
  end.

(** [self.grid[y][x] = t], also the write-back of a tile object mutated
    in place. *)
Definition grid_set {A : Type} (gr : list (list A)) (x y : Z) (t : A) : list (list A) :=
  if (x <? 0) || (y <? 0) then gr else
  alter (fun row => <[Z.to_nat x := t]> row) (Z.to_nat y) gr.

(** [range(n)] *)
Definition range (n : Z) : list Z := seqZ 0 n.

(** The cells in the order of
    [for y in range(GRID_SIZE): for x in range(GRID_SIZE)]. *)
Definition grid_positions : list (Z * Z) :=
  y ← range GRID_SIZE; x ← range GRID_SIZE; [(x, y)].

(** A [for] loop whose body may raise. *)
Fixpoint for_each {A S : Type} (body : A -> S -> Res S) (l : list A) (s : S) : Res S :=
  match l with
  | [] => Ok s
  | a :: l' => s' <- body a s; for_each body l' s'
  end.

(** A [for] loop whose body may raise or [return]; the body answers [true]
    when it returns from the enclosing method. *)
Fixpoint for_each_until {A S : Type} (body : A -> S -> Res (bool * S))
    (l : list A) (s : S) : Res S :=
  match l with
  | [] => Ok s
  | a :: l' =>
      '(stop, s') <- body a s;
      if stop then Ok s' else for_each_until body l' s'
  end.

(** ** Reveal rules *)

(** The condition shared by [is_fight_active] and [process_player_attacks]. *)
Definition is_active (t : Tile) : bool :=
  (bool_decide (tile_type t = BOSS) || bool_decide (tile_type t = ENEMY))
  && bool_decide (state t = FACE_UP)
  && (0 <? health t).

Fixpoint any_tile (p : Tile -> bool) (gr : list (list Tile)) (ps : list (Z * Z)) : Res bool :=
  match ps with
  | [] => Ok false
  | (x, y) :: ps' =>
      tile <- grid_get gr x y;
      if p tile then Ok true else any_tile p gr ps'
  end.

(** [Game.is_fight_active] *)
Definition is_fight_active (g : Game) : Res bool :=
  any_tile is_active (grid g) grid_positions.

(** [Game.can_click_tile] *)
Definition can_click_tile (x y : Z) (g : Game) : bool :=
  match revealed_tiles g with
  | [] => true
  | _ => existsb (fun r : Z * Z => Z.abs (x - r.1) + Z.abs (y - r.2) =? 1) (revealed_tiles g)
  end.

(** [self.inventory[k]] *)
Definition inventory_item (k : string) (g : Game) : Res PyVal :=
  match inventory g !! k with
  | Some v => Ok v
  | None => Raise (KeyError k)
  end.

(** [self.score += item_scores.get(id, 10)], then the energy tank's heal. *)
Definition score_item (id : string) (g : Game) : Game :=
  let g := set_score (score g + dict_get item_scores id 10) g in
  if String.eqb id "energy_tank" then
    let g := set_max_energy (max_energy g + 100) g in
    let g := set_player_energy (max_energy g) g in
    log_combat (MsgEnergyTank (max_energy g)) g
  else g.

(** The Norfair check that closes a reveal. *)
Definition norfair_damage (tile : Tile) (g : Game) : Game :=
  if bool_decide (area tile = NORFAIR) && negb (inv_flag (inventory g) "varia") then
    let g := set_player_energy (player_energy g - 25) g in
    let g := log_combat MsgHeat g in
    if player_energy g <=? 0 then log_combat MsgGameOver (set_game_over true g)
    else g
  else g.

(** One diagonal of [Game.auto_grab_adjacent_items]. *)
Definition auto_grab_tile (p : Z * Z) (g : Game) : Res Game :=
  let '(diag_x, diag_y) := p in
  if negb (in_grid diag_x diag_y) then Ok g else
  tile <- grid_get (grid g) diag_x diag_y;
  if bool_decide (state tile = FACE_DOWN) && bool_decide (tile_type tile = ITEM) then
    if bool_decide (area tile = MARIDIA) && negb (inv_flag (inventory g) "gravity")
    then Ok g
    else
      let tile := set_state FACE_UP tile in
      let g := set_grid (grid_set (grid g) diag_x diag_y tile) g in
      let g := set_revealed_tiles (revealed_tiles g ++ [(diag_x, diag_y)]) g in
      v <- inventory_item (item_id tile) g;
      let g :=
        if isinstance_bool v then
          if negb (truthy v) then
            log_combat (MsgXray (item_id tile))
              (set_inventory (<[item_id tile := PyBool true]> (inventory g)) g)
          else g
        else
          log_combat (MsgXrayTotal (item_id tile) (as_int v + 1))
            (set_inventory (<[item_id tile := PyInt (as_int v + 1)]> (inventory g)) g) in
      let g := score_item (item_id tile) g in
      Ok (norfair_damage tile g)
  else Ok g.

(** [Game.auto_grab_adjacent_items] *)
Definition auto_grab_adjacent_items (x y : Z) (g : Game) : Res Game :=
  for_each auto_grab_tile
    [(x - 1, y - 1); (x + 1, y - 1); (x - 1, y + 1); (x + 1, y + 1)] g.

(** The item branch of [Game.handle_click]; [true] is the early [return]
    of an item already owned. *)
Definition collect_item (tile : Tile) (grid_x grid_y : Z) (g : Game) : Res (bool * Game) :=
  v <- inventory_item (item_id tile) g;
  if isinstance_bool v && truthy v then
    Ok (true, log_combat (MsgAlreadyHave (item_id tile)) g)
  else
    let g :=
      if isinstance_bool v then
        log_combat (MsgCollected (item_id tile))
          (set_inventory (<[item_id tile := PyBool true]> (inventory g)) g)
      else
        log_combat (MsgCollectedTotal (item_id tile) (as_int v + 1))
          (set_inventory (<[item_id tile := PyInt (as_int v + 1)]> (inventory g)) g) in
    let g := score_item (item_id tile) g in
    g <- (if inv_flag (inventory g) "xray"
         then auto_grab_adjacent_items grid_x grid_y g else Ok g);
    Ok (false, g).

(** The body of [handle_click] once the tile passed every check. *)
Definition reveal_tile (tile : Tile) (grid_x grid_y : Z) (g : Game) : Res Game :=
  let tile := set_state FACE_UP tile in
  let g := set_grid (grid_set (grid g) grid_x grid_y tile) g in
  let g := set_revealed_tiles (revealed_tiles g ++ [(grid_x, grid_y)]) g in
  '(stop, g) <- match tile_type tile with
      | ITEM => collect_item tile grid_x grid_y g
      | BOSS => Ok (false, log_combat (MsgRevealedBoss (item_id tile) (health tile)) g)
      | ENEMY => Ok (false, log_combat (MsgRevealedEnemy (item_id tile) (health tile)) g)
      | EMPTY => Ok (false, g)
      end;
  if stop then Ok g else Ok (norfair_damage tile g).

(** [Game.handle_click]; [pos] is the pixel position of the click. *)
Definition handle_click (pos : Z * Z) (g : Game) : Res Game :=
  fight <- is_fight_active g;
  if fight then Ok g else
  let '(x, y) := pos in
  if (GRID_START_X <=? x) && (x <? GRID_START_X + GRID_SIZE * TILE_SIZE)
     && (GRID_START_Y <=? y) && (y <? GRID_START_Y + GRID_SIZE * TILE_SIZE)
  then
    let grid_x := (x - GRID_START_X) / TILE_SIZE in
    let grid_y := (y - GRID_START_Y) / TILE_SIZE in
    tile <- grid_get (grid g) grid_x grid_y;
    if bool_decide (state tile = FACE_DOWN) && can_click_tile grid_x grid_y g then
      if bool_decide (area tile = MARIDIA) && negb (inv_flag (inventory g) "gravity")
      then Ok (log_combat MsgMaridiaBlocked g)
      else reveal_tile tile grid_x grid_y g
    else Ok g
  else Ok g.

(** ** Combat *)

Definition boss_turn_interval : Z := 60.
Definition player_attack_interval : Z := 30.

(** [Game.get_attack_first_chance]; the quarters are exact as floats. *)
Definition get_attack_first_chance (g : Game) : Q :=
  let inv := inventory g in
  let chance := 0%Q in
  let chance := if inv_flag inv "space" then (chance + (1 # 4))%Q else chance in
  let chance := if inv_flag inv "hijump" then (chance + (1 # 4))%Q else chance in
  let chance := if inv_flag inv "morph" then (chance + (1 # 4))%Q else chance in
  let chance := if inv_flag inv "spring" then (chance + (1 # 4))%Q else chance in
  let chance := if inv_flag inv "speed" then (chance + (1 # 2))%Q else chance in
  if Qle_bool chance 1 then chance else 1%Q.

(** An enemy that is not frozen attacks; [true] is the [return] on defeat. *)
Definition enemy_attack (tile : Tile) (g : Game) : bool * Game :=
  let damage := dict_get enemy_damage (item_id tile) 3 in
  let g := set_player_energy (player_energy g - damage) g in
  let g := log_combat (MsgAttacks (item_id tile) damage) g in
  if player_energy g <=? 0 then
    (true, log_combat MsgGameOver (set_game_over true g))
  else (false, g).

(** The loop body of [Game.process_enemy_turns]. *)
Definition enemy_turn (p : Z * Z) (g : Game) : Res (bool * Game) :=
  let '(x, y) := p in
  tile <- grid_get (grid g) x y;
  if bool_decide (tile_type tile = ENEMY) && bool_decide (state tile = FACE_UP)
     && (0 <? health tile)
  then
    if frozen tile then
      let g := log_combat (MsgFrozenSkip (item_id tile)) g in
      Ok (false, set_grid (grid_set (grid g) x y (set_frozen false tile)) g)
    else Ok (enemy_attack tile g)
  else Ok (false, g).

(** [Game.process_enemy_turns] *)
Definition process_enemy_turns (g : Game) : Res Game :=
  for_each_until enemy_turn grid_positions g.

(** A boss that is not frozen attacks. *)
Definition boss_attack (tile : Tile) (g : Game) : Game :=
  let damage := get_boss_damage (item_id tile) in
  let g := set_player_energy (player_energy g - damage) g in
  let g := log_combat (MsgAttacks (item_id tile) damage) g in
  if player_energy g <=? 0 then
    log_combat MsgGameOver (set_game_over true (set_player_energy 0 g))
  else g.

(** The loop body of [Game.process_boss_turns]. *)
Definition boss_turn (p : Z * Z) (g : Game) : Res Game :=
  let '(x, y) := p in
  tile <- grid_get (grid g) x y;
  if bool_decide (tile_type tile = BOSS) && bool_decide (state tile = FACE_UP)
     && (0 <? health tile)
  then
    if frozen tile then
      let g := log_combat (MsgFrozenSkip (item_id tile)) g in
      Ok (set_grid (grid_set (grid g) x y (set_frozen false tile)) g)
    else Ok (boss_attack tile g)
  else Ok g.

(** [Game.process_boss_turns] *)
Definition process_boss_turns (g : Game) : Res Game :=
  for_each boss_turn grid_positions g.

(** The inner loop of the Ceres Station case. *)
Definition reduce_ridley (p : Z * Z) (g : Game) : Res Game :=
  let '(x2, y2) := p in
  ridley_tile <- grid_get (grid g) x2 y2;
  if bool_decide (tile_type ridley_tile = BOSS)
     && String.eqb (item_id ridley_tile) "ridley"
     && (0 <? health ridley_tile)
  then
    let ridley_tile := set_health (Z.max 0 (health ridley_tile - 1000)) ridley_tile in
    let g := set_grid (grid_set (grid g) x2 y2 ridley_tile) g in
    Ok (log_combat (MsgRidleyHealth (health ridley_tile)) g)
  else Ok g.

(** [self.boss_defeats[id] += 1] *)
Definition count_boss_defeat (id : string) (g : Game) : Res Game :=
  match boss_defeats g !! id with
  | Some n => Ok (set_boss_defeats (<[id := n + 1]> (boss_defeats g)) g)
  | None => Raise (KeyError id)
  end.

(** What follows [tile.state = TileState.DESTROYED]; [true] is the
    [return] of the Mother Brain case. *)
Definition handle_defeat (tile : Tile) (g : Game) : Res (bool * Game) :=
  match tile_type tile with
  | BOSS =>
      g <- count_boss_defeat (item_id tile) g;
      if String.eqb (item_id tile) "ceres_station" then
        let g := log_combat MsgCeresSaved g in
        let g := log_combat MsgRidleyDown g in
        g <- for_each reduce_ridley grid_positions g;
        Ok (false, set_score (score g + 600) g)
      else if String.eqb (item_id tile) "mother_brain_1" then
        let g := set_victory true (set_game_over true g) in
        Ok (true, log_combat MsgVictory g)
      else
        let points := dict_get boss_scores (item_id tile) 1000 in
        let g := set_score (score g + points) g in
        Ok (false, log_combat (MsgDefeated (item_id tile) points) g)
  | ENEMY =>
      let points := dict_get enemy_scores (item_id tile) 25 in
      let g := set_score (score g + points) g in
      Ok (false, log_combat (MsgDefeated (item_id tile) points) g)
  | _ => Ok (false, g)
  end.

(** The loop body of [Game.process_player_attacks].  [tile] is a reference
    into the grid; nothing reads the grid between its assignments, so the
    cell is written back once, before the defeat handling.  The freeze
    roll is drawn only when the Ice Beam is held and the target survived;
    for a draw, a multiple of 2^-53, [r < 0.10] on floats agrees with
    [r < 1/10]. *)
Definition player_attack (p : Z * Z) (g : Game) : Res (bool * Game) :=
  let '(x, y) := p in
  tile <- grid_get (grid g) x y;
  if is_active tile then
    let '(damage, g) := get_player_damage (item_id tile) g in
    let tile := set_health (health tile - damage) tile in
    let g := log_combat (MsgSamusAttacks (item_id tile) damage) g in
    let '(tile, g) :=
      if inv_flag (inventory g) "ice" && (0 <? health tile) then
        let '(r, g) := random_random g in
        if Qltb r (1 # 10)
        then (set_frozen true tile, log_combat (MsgFrozen (item_id tile)) g)
        else (tile, g)
      else (tile, g) in
    if health tile <=? 0 then
      let tile := set_state DESTROYED (set_health 0 tile) in
      let g := set_grid (grid_set (grid g) x y tile) g in
      handle_defeat tile g
    else Ok (false, set_grid (grid_set (grid g) x y tile) g)
  else Ok (false, g).

(** [Game.process_player_attacks] *)
Definition process_player_attacks (g : Game) : Res Game :=
  for_each_until player_attack grid_positions g.

(** [Game.update]: one tick. *)
Definition update (g : Game) : Res Game :=
  if game_over g then Ok g else
  let g := set_max_energy (99 + inv_count (inventory g) "energy_tank" * 100) g in
  let g := set_boss_turn_timer (boss_turn_timer g + 1) g in
  let '(r, g) := random_random g in
  let player_attacks_first := Qltb r (get_attack_first_chance g) in
  g <- (if boss_turn_interval <=? boss_turn_timer g then
          let g := set_boss_turn_timer 0 g in
          fight <- (if player_attacks_first then is_fight_active g else Ok false);
          if player_attacks_first && fight then
            g <- process_player_attacks g;
            g <- process_enemy_turns g;
            process_boss_turns g
          else
            g <- process_enemy_turns g;
            process_boss_turns g
        else Ok g);
  if negb player_attacks_first then
    let g := set_player_attack_timer (player_attack_timer g + 1) g in
    if player_attack_interval <=? player_attack_timer g then
      process_player_attacks (set_player_attack_timer 0 g)
    else Ok g
  else Ok g.

(** ** Board generation *)

Record AreaData := mkAreaData {
  bosses : list string;
  unique_items : list string;
  consumables : list string;
  enemies : list string;
}.

Definition all_consumables : list string :=
  ["missiles"; "supers"; "power_bombs"; "energy_tank"].

(** The [areas] dictionary of [populate_grid] (colours left out). *)
Definition areas (a : AreaType) : AreaData :=
  match a with
  | CRATERIA =>
      mkAreaData ["samus_ship"; "bomb_torizo"] [] all_consumables ["geemer"; "skree"]
  | BRINSTAR =>
      mkAreaData ["kraid"; "spore_spawn"]
        ["morph"; "bomb"; "charge"; "varia"; "spazer"; "xray"]
        all_consumables ["geemer"; "skree"; "side_hopper"]
  | NORFAIR =>
      mkAreaData ["ridley"; "crocomire"]
        ["hijump"; "speed"; "ice"; "screw"; "wave"; "grapple"]
        all_consumables ["skree"; "side_hopper"; "ciser"]
  | MARIDIA =>
      mkAreaData ["draygon"; "botwoon"] ["spring"; "space"; "plasma"]
        all_consumables ["geemer"; "ciser"]
  | TOURIAN =>
      mkAreaData ["mother_brain_1"] [] all_consumables ["side_hopper"; "ciser"]
  | WRECKED_SHIP =>
      mkAreaData ["phantoon"] ["gravity"] all_consumables ["geemer"; "skree"]
  | CERES =>
      mkAreaData ["ceres_station"] [] all_consumables ["skree"; "side_hopper"]
  end.

(** The keys of [areas] in insertion order. *)
Definition all_area_types : list AreaType :=
  [CRATERIA; BRINSTAR; NORFAIR; MARIDIA; TOURIAN; WRECKED_SHIP; CERES].

Definition boss_health : gmap string Z :=
  list_to_map
    [("bomb_torizo", 800); ("spore_spawn", 1200); ("kraid", 3000);
     ("crocomire", 2000); ("phantoon", 3500); ("botwoon", 2500);
     ("draygon", 4000); ("gold_torizo", 3000); ("ridley", 6000);
     ("mother_brain_1", 8000); ("mother_brain_2", 4000); ("samus_ship", 0);
     ("ceres_station", 1000); ("golden_four", 6000)].

Definition enemy_health : gmap string Z :=
  list_to_map [("geemer", 50); ("skree", 75); ("side_hopper", 100); ("ciser", 125)].

(** [d[k]] on a table of numbers. *)
Definition dict_item (d : gmap string Z) (k : string) : Res Z :=
  match d !! k with Some v => Ok v | None => Raise (KeyError k) end.

(** The inventory of [initialize_game]. *)
Definition initial_inventory : gmap string PyVal :=
  list_to_map
    [("missiles", PyInt 0); ("supers", PyInt 0); ("power_bombs", PyInt 0);
     ("energy_tank", PyInt 0); ("morph", PyBool false); ("bomb", PyBool false);
     ("hijump", PyBool false); ("speed", PyBool false); ("grapple", PyBool false);
     ("xray", PyBool false); ("spring", PyBool false); ("space", PyBool false);
     ("screw", PyBool false); ("charge", PyBool false); ("spazer", PyBool false);
     ("wave", PyBool false); ("ice", PyBool false); ("plasma", PyBool false);
     ("varia", PyBool false); ("gravity", PyBool false)].

Definition boss_list : list string :=
  ["bomb_torizo"; "spore_spawn"; "kraid"; "crocomire"; "phantoon"; "botwoon";
   "draygon"; "gold_torizo"; "ridley"; "mother_brain_1"; "ceres_station"].

Definition initial_boss_defeats : gmap string Z :=
  list_to_map ((fun boss => (boss, 0)) <$> boss_list).

(** A dictionary keyed by cells, in insertion order. *)
Fixpoint cell_dict_set {V : Type} (k : Z * Z) (v : V) (d : list ((Z * Z) * V))
    : list ((Z * Z) * V) :=
  match d with
  | [] => [(k, v)]
  | (k', v') :: d' =>
      if bool_decide (k' = k) then (k, v) :: d' else (k', v') :: cell_dict_set k v d'
  end.

Section Generator.

(** The draws of the [random] module. *)
Variable tape : nat -> Q.

(** A uniform index below [n], from one draw. *)
Definition randbelow (n : Z) (pos : nat) : Z * nat :=
  (Qfloor (tape pos * inject_Z n) mod n, S pos).

(** [random.randint(a, b)] *)
Definition randint (a b : Z) (pos : nat) : Z * nat :=
  let '(k, pos) := randbelow (b - a + 1) pos in (a + k, pos).

(** [random.choice(l)] *)
Definition choice {A : Type} (l : list A) (pos : nat) : Res (A * nat) :=
  let '(k, pos) := randbelow (Z.of_nat (length l)) pos in
  match l !! Z.to_nat k with
  | Some a => Ok (a, pos)
  | None => Raise IndexError
  end.

(** [random.shuffle(x)]:
    [for i in reversed(range(1, len(x))): j = randbelow(i + 1); x[i], x[j] = x[j], x[i]];
    [shuffle_from i] runs the iterations [i, i-1, .., 1]. *)
Fixpoint shuffle_from {A : Type} (i : nat) (x : list A) (pos : nat) : list A * nat :=
  match i with
  | O => (x, pos)
  | S i' =>
      let '(j, pos) := randbelow (Z.of_nat i + 1) pos in
      let x :=
        match x !! i, x !! Z.to_nat j with
        | Some xi, Some xj => <[Z.to_nat j := xi]> (<[i := xj]> x)
        | _, _ => x
        end in
      shuffle_from i' x pos
  end.

Definition shuffle {A : Type} (x : list A) (pos : nat) : list A * nat :=
  shuffle_from (length x - 1)%nat x pos.

(** The choice of a start cell inside the [while attempts < 50] loop. *)
Definition pick_start (area_type : AreaType) (pos : nat) : Res ((Z * Z) * nat) :=
  match area_type with
  | CRATERIA =>
      let '(start_x, pos) := randint 0 3 pos in
      let '(start_y, pos) := randint 0 3 pos in
      Ok ((start_x, start_y), pos)
  | TOURIAN => choice [(0, 0); (9, 0); (0, 9); (9, 9)] pos
  | _ =>
      let '(start_x, pos) := randint 1 8 pos in
      let '(start_y, pos) := randint 1 8 pos in
      Ok ((start_x, start_y), pos)
  end.

(** The [while attempts < 50] loop with [left] iterations to go; the
    answer holds the last start cell and whether the loop left by
    [break]. *)
Fixpoint find_start (left : nat) (area_type : AreaType)
    (area_map : list (list (option AreaType))) (start : Z * Z) (pos : nat)
    : Res ((Z * Z) * bool * nat) :=
  match left with
  | O => Ok (start, false, pos)
  | S left' =>
      '(start, pos) <- pick_start area_type pos;
      cell <- grid_get area_map start.1 start.2;
      match cell with
      | None => Ok (start, true, pos)
      | Some _ => find_start left' area_type area_map start pos
      end
  end.

(** The first cell still [None] in scan order, else [start]. *)
Fixpoint first_free (area_map : list (list (option AreaType))) (ps : list (Z * Z))
    (start : Z * Z) : Res (Z * Z) :=
  match ps with
  | [] => Ok start
  | (x, y) :: ps' =>
      cell <- grid_get area_map x y;
      match cell with
      | None => Ok (x, y)
      | Some _ => first_free area_map ps' start
      end
  end.

(** The [while stack and placed < max_tiles] loop of [flood_fill_area].
    Every cell is assigned at most once and an assignment appends at most
    eight cells, so the loop pops at most 801 times; [fuel] bounds the
    iterations. *)
Fixpoint flood_loop (fuel : nat) (area_type : AreaType) (max_tiles : Z)
    (stack : list (Z * Z)) (placed : Z) (visited : gset (Z * Z))
    (area_map : list (list (option AreaType))) : Res (list (list (option AreaType))) :=
  match fuel with
  | O => Raise FuelExhausted
  | S fuel' =>
      match stack with
      | [] => Ok area_map
      | (x, y) :: stack =>
          if negb (placed <? max_tiles) then Ok area_map else
          if bool_decide ((x, y) ∈ visited) || negb (in_grid x y) then
            flood_loop fuel' area_type max_tiles stack placed visited area_map
          else
            cell <- grid_get area_map x y;
            match cell with
            | Some _ =>
                flood_loop fuel' area_type max_tiles stack placed visited area_map
            | None =>
                let area_map := grid_set area_map x y (Some area_type) in
                let placed := placed + 1 in
                let visited := {[(x, y)]} ∪ visited in
                let neighbors :=
                  [(x, y - 1); (x, y + 1); (x - 1, y); (x + 1, y);
                   (x - 1, y - 1); (x + 1, y - 1); (x - 1, y + 1); (x + 1, y + 1)] in
                let free (n : Z * Z) :=
                  negb (bool_decide (n ∈ visited)) && in_grid n.1 n.2
                  && match grid_get area_map n.1 n.2 with
                     | Ok None => true
                     | _ => false
                     end in
                flood_loop fuel' area_type max_tiles (stack ++ filter free neighbors)
                  placed visited area_map
            end
      end
  end.

(** [Game.flood_fill_area] *)
Definition flood_fill_area (start_x start_y : Z) (area_type : AreaType) (max_tiles : Z)
    (area_map : list (list (option AreaType))) : Res (list (list (option AreaType))) :=
  cell <- grid_get area_map start_x start_y;
  match cell with
  | Some _ => Ok area_map
  | None =>
      flood_loop 1000 area_type max_tiles [(start_x, start_y)] 0 ∅ area_map
  end.

(** Step 2 of [populate_grid] for one area type. *)
Definition place_area (area_type : AreaType)
    (st : list (list (option AreaType)) * nat)
    : Res (list (list (option AreaType)) * nat) :=
  let '(area_map, pos) := st in
  '(start, found, pos) <- find_start 50 area_type area_map (0, 0) pos;
  start <- (if found then Ok start else first_free area_map grid_positions start);
  let '(area_size, pos) :=
    match area_type with
    | WRECKED_SHIP => randint 15 25 pos
    | CERES => randint 10 18 pos
    | _ => randint 12 25 pos
    end in
  area_map <- flood_fill_area start.1 start.2 area_type area_size area_map;
  Ok (area_map, pos).

(** Step 3: the cells still [None] become Crateria. *)
Definition fill_crateria (area_map : list (list (option AreaType)))
    : list (list (option AreaType)) :=
  map (map (fun cell : option AreaType =>
              match cell with
              | None => Some CRATERIA
              | Some a => Some a
              end)) area_map.

(** The cells of an area in scan order that pass [keep]. *)
Definition area_cells (area_map : list (list (option AreaType))) (area_type : AreaType)
    (keep : Z * Z -> bool) : list (Z * Z) :=
  List.filter
    (fun p : Z * Z =>
       match grid_get area_map p.1 p.2 with
       | Ok (Some a) => bool_decide (a = area_type) && keep p
       | _ => false
       end)
    grid_positions.

(** Step 4 for one boss. *)
Definition place_boss (area_map : list (list (option AreaType)))
    (area_type : AreaType) (boss_id : string)
    (st : list ((Z * Z) * (string * AreaType)) * nat)
    : Res (list ((Z * Z) * (string * AreaType)) * nat) :=
  let '(boss_placements, pos) := st in
  let too_close (p : Z * Z) :=
    negb (String.eqb boss_id "samus_ship")
    && existsb (fun b : (Z * Z) * (string * AreaType) =>
                  Z.abs (p.1 - b.1.1) + Z.abs (p.2 - b.1.2) <? 3)
               boss_placements in
  let suitable_positions := area_cells area_map area_type (fun p => negb (too_close p)) in
  match suitable_positions with
  | _ :: _ =>
      '(p, pos) <- choice suitable_positions pos;
      Ok (cell_dict_set p (boss_id, area_type) boss_placements, pos)
  | [] =>
      let fallback_positions := area_cells area_map area_type (fun _ => true) in
      match fallback_positions with
      | _ :: _ =>
          '(p, pos) <- choice fallback_positions pos;
          Ok (cell_dict_set p (boss_id, area_type) boss_placements, pos)
      | [] => Ok (boss_placements, pos)
      end
  end.

(** Step 4: every boss of every area, in order. *)
Definition place_bosses (area_map : list (list (option AreaType))) (pos : nat)
    : Res (list ((Z * Z) * (string * AreaType)) * nat) :=
  for_each
    (fun area_type st => for_each (place_boss area_map area_type) (bosses (areas area_type)) st)
    all_area_types ([], pos).

(** The state [place_items_in_areas] works on. *)
Record Board := mkBoard {
  cells : list (list (option Tile));
  revealed : list (Z * Z);
  log : list LogMsg;
  draws : nat;
}.

(** First loop of [place_items_in_areas]: one boss placement. *)
Definition put_boss (b : (Z * Z) * (string * AreaType)) (bd : Board) : Res Board :=
  let '((x, y), (boss_id, area_type)) := b in
  if String.eqb boss_id "samus_ship" then
    let tile := new_tile x y BOSS boss_id area_type in
    let tile := set_max_health 0 (set_health 0 (set_state FACE_UP tile)) in
    Ok (mkBoard (grid_set (cells bd) x y (Some tile)) (revealed bd ++ [(x, y)])
          (push_log MsgObjective (push_log MsgArrived (log bd))) (draws bd))
  else
    let tile := new_tile x y BOSS boss_id area_type in
    hp <- dict_item boss_health boss_id;
    let tile := set_max_health hp (set_health hp tile) in
    Ok (mkBoard (grid_set (cells bd) x y (Some tile)) (revealed bd) (log bd) (draws bd)).

(** The cells of an area whose grid entry is still [None]. *)
Definition empty_cells (area_map : list (list (option AreaType))) (area_type : AreaType)
    (gr : list (list (option Tile))) : list (Z * Z) :=
  area_cells area_map area_type
    (fun p => match grid_get gr p.1 p.2 with Ok None => true | _ => false end).

(** Second loop: the unique items of one area. *)
Definition put_unique_items (area_map : list (list (option AreaType)))
    (area_type : AreaType) (bd : Board) : Res Board :=
  let '(items, pos) := shuffle (unique_items (areas area_type)) (draws bd) in
  let area_tiles := empty_cells area_map area_type (cells bd) in
  let gr :=
    foldl (fun gr (ip : string * (Z * Z)) =>
             let '(item, (x, y)) := ip in
             grid_set gr x y (Some (new_tile x y ITEM item area_type)))
          (cells bd) (zip items area_tiles) in
  Ok (mkBoard gr (revealed bd) (log bd) pos).

(** Third loop: one cell.  A draw is a multiple of 2^-53, and for such a
    number the comparisons with the floats 0.20 and 0.40 agree with those
    with 1/5 and 2/5. *)
Definition fill_cell (area_map : list (list (option AreaType))) (p : Z * Z)
    (bd : Board) : Res Board :=
  let '(x, y) := p in
  cell <- grid_get (cells bd) x y;
  match cell with
  | Some _ => Ok bd
  | None =>
      area_cell <- grid_get area_map x y;
      match area_cell with
      | None => Raise (KeyError "None")
      | Some area_type =>
          let area_data := areas area_type in
          let rand := tape (draws bd) in
          let pos := S (draws bd) in
          '(tile, pos) <-
            (if Qltb rand (20 # 100) then
               '(item, pos) <- choice (consumables area_data) pos;
               Ok (new_tile x y ITEM item area_type, pos)
             else if Qltb rand (40 # 100) then
               '(enemy, pos) <- choice (enemies area_data) pos;
               hp <- dict_item enemy_health enemy;
               Ok (set_max_health hp (set_health hp (new_tile x y ENEMY enemy area_type)), pos)
             else Ok (new_tile x y EMPTY "" area_type, pos));
          Ok (mkBoard (grid_set (cells bd) x y (Some tile)) (revealed bd) (log bd) pos)
      end
  end.

(** [Game.place_items_in_areas] *)
Definition place_items_in_areas (area_map : list (list (option AreaType)))
    (boss_placements : list ((Z * Z) * (string * AreaType))) (bd : Board) : Res Board :=
  bd <- for_each put_boss boss_placements bd;
  bd <- for_each (put_unique_items area_map) all_area_types bd;
  for_each (fill_cell area_map) grid_positions bd.

(** Steps 4 and 5 of [populate_grid], on a finished area map. *)
Definition populate_from (area_map : list (list (option AreaType))) (bd : Board) : Res Board :=
  '(boss_placements, pos) <- place_bosses area_map (draws bd);
  place_items_in_areas area_map boss_placements
    (mkBoard (cells bd) (revealed bd) (log bd) pos).

Definition empty_board : Board :=
  mkBoard (replicate 10 (replicate 10 None)) [] [] 0.

(** [Game.populate_grid] *)
Definition populate_grid (bd : Board) : Res Board :=
  let area_map := replicate 10 (replicate 10 None) in
  '(area_map, pos) <- for_each place_area all_area_types (area_map, draws bd);
  let area_map := fill_crateria area_map in
  populate_from area_map (mkBoard (cells bd) (revealed bd) (log bd) pos).

(** After generation every cell holds a tile. *)
Definition tile_of (c : option Tile) : Res Tile :=
  match c with Some t => Ok t | None => Raise AttributeError end.

Fixpoint all_ok {A B : Type} (f : A -> Res B) (l : list A) : Res (list B) :=
  match l with
  | [] => Ok []
  | a :: l' => b <- f a; bs <- all_ok f l'; Ok (b :: bs)
  end.

(** The game object once [populate_grid] has filled the board. *)
Definition game_of_board (bd : Board) : Res Game :=
  gr <- all_ok (all_ok tile_of) (cells bd);
  Ok (mkGame gr initial_inventory (revealed bd) 99 99 (log bd) 0 0 false false 0
        initial_boss_defeats tape (draws bd)).

(** [Game.__init__] *)
Definition new_game : Res Game :=
  bd <- populate_grid empty_board;
  game_of_board bd.

End Generator.

(** * Statements *)

(** ** Player damage, as the specification words it *)




(** ** Boards and sessions used in examples *)

(** A board of hidden empty Crateria tiles. *)
Definition blank_grid : list (list Tile) :=
  (fun y => (fun x => new_tile x y EMPTY "" CRATERIA) <$> range GRID_SIZE) <$> range GRID_SIZE.

(** [blank_grid] with the given tiles put at their own cells. *)
Definition board_of (tiles : list Tile) : list (list Tile) :=
  foldl (fun gr t => grid_set gr (tile_x t) (tile_y t) t) blank_grid tiles.

Definition revealed_empty (x y : Z) : Tile :=
  set_state FACE_UP (new_tile x y EMPTY "" CRATERIA).

Definition hidden_item (x y : Z) (id : string) (a : AreaType) : Tile :=
  new_tile x y ITEM id a.

Definition hidden_actor (x y : Z) (ty : TileType) (id : string) (a : AreaType) (hp : Z) : Tile :=
  set_max_health hp (set_health hp (new_tile x y ty id a)).

Definition revealed_actor (x y : Z) (ty : TileType) (id : string) (a : AreaType) (hp : Z) : Tile :=
  set_state FACE_UP (hidden_actor x y ty id a hp).

(** A session in play on the given board, with every draw equal to [r]. *)
Definition session (gr : list (list Tile)) (inv : gmap string PyVal)
    (shown : list (Z * Z)) (energy : Z) (r : Q) : Game :=
  mkGame gr inv shown energy 99 [] 0 0 false false 0 initial_boss_defeats (fun _ => r) 0.

(** The inventory with the listed unique items held. *)
Definition holding (items : list string) : gmap string PyVal :=
  foldr (fun k inv => <[k := PyBool true]> inv) initial_inventory items.

(** The pixel at the centre of a cell. *)
Definition pixel_of (x y : Z) : Z * Z :=
  (GRID_START_X + x * TILE_SIZE + 32, GRID_START_Y + y * TILE_SIZE + 32).

(** The cell a click lands on, if any. *)
Definition clicked_cell (pos : Z * Z) : option (Z * Z) :=
  if (GRID_START_X <=? pos.1) && (pos.1 <? GRID_START_X + GRID_SIZE * TILE_SIZE)
     && (GRID_START_Y <=? pos.2) && (pos.2 <? GRID_START_Y + GRID_SIZE * TILE_SIZE)
  then Some ((pos.1 - GRID_START_X) / TILE_SIZE, (pos.2 - GRID_START_Y) / TILE_SIZE)
  else None.

(** A draw tape for sample sessions. *)
Definition sample_tape (n : nat) : Q := Z.of_nat ((n * 37 + 11) mod 100) # 100.

(** Energy 2 with a live Skree in view, one tick before the enemies act. *)
Definition low_energy_fight : Game :=
  set_boss_turn_timer 59
    (session (board_of [revealed_empty 0 0; revealed_actor 1 0 ENEMY "skree" CRATERIA 75])
       initial_inventory [(0, 0); (1, 0)] 2 0).


(** Energy 25 facing Mother Brain. *)
Definition boss_fight_25 : Game :=
  session (board_of [revealed_empty 0 0; revealed_actor 1 0 BOSS "mother_brain_1" TOURIAN 8000])
    initial_inventory [(0, 0); (1, 0)] 25 0.



(** An enemy whose id no table lists. *)
Definition unknown_enemy_fight : Game :=
  session (board_of [revealed_empty 0 0; revealed_actor 1 0 ENEMY "zoomer" CRATERIA 50])
    initial_inventory [(0, 0); (1, 0)] 99 0.

(** Speed Booster, Space Jump and High Jump held (first-strike chance 1),
    a live Geemer in view, the player one tick from its 30th. *)
Definition fast_player_fight : Game :=
  set_player_attack_timer 29
    (session (board_of [revealed_empty 0 0; revealed_actor 1 0 ENEMY "geemer" CRATERIA 50])
       (holding ["speed"; "space"; "hijump"]) [(0, 0); (1, 0)] 99 0).

(** ** Shape of the board *)

Definition wf_grid {A : Type} (gr : list (list A)) : Prop :=
  length gr = 10%nat /\ Forall (fun row => length row = 10%nat) gr.

(** ** Sessions in play *)

(** One event of a session: a click or a tick. *)
Inductive step : Game -> Game -> Prop :=
  | step_click (pos : Z * Z) (g g' : Game) : handle_click pos g = Ok g' -> step g g'
  | step_tick (g g' : Game) : update g = Ok g' -> step g g'.

(** The sessions [Game.__init__] can produce.  The area map handed to the
    boss and item placement is left arbitrary, which covers every map the
    flood fill builds. *)
Definition generated (g : Game) : Prop :=
  exists tape area_map pos bd,
    populate_from tape area_map (mkBoard (cells empty_board) [] [] pos) = Ok bd
    /\ game_of_board tape bd = Ok g.

Definition reachable (g : Game) : Prop :=
  exists g0, generated g0 /\ rtc step g0 g.

(** ** Relations between the tiles of two boards *)











(** The reveal attempts [handle_click] turns down. *)
Definition illegal_reveal (pos : Z * Z) (g : Game) : Prop :=
  is_fight_active g = Ok true
  \/ exists gx gy tile,
       clicked_cell pos = Some (gx, gy)
       /\ grid_get (grid g) gx gy = Ok tile
       /\ (state tile <> FACE_DOWN
           \/ can_click_tile gx gy g = false
           \/ (area tile = MARIDIA /\ inv_flag (inventory g) "gravity" = false)).


(** A lost session: game-over is set, the energy is 0, no actor is in
    view, and a hidden energy tank lies next to a revealed cell. *)
Definition defeated_session : Game :=
  set_game_over true
    (session (board_of [revealed_empty 0 0; hidden_item 1 0 "energy_tank" CRATERIA])
       initial_inventory [(0, 0)] 0 0).

(** A board with a revealed Maridia neighbour the player may not enter. *)
Definition maridia_locked : Game :=
  session (board_of [revealed_empty 0 0; new_tile 1 0 EMPTY "" MARIDIA])
    initial_inventory [(0, 0)] 99 0.




(** One event of a play. *)
Inductive Event := Click (pos : Z * Z) | Tick.

Fixpoint play (es : list Event) (g : Game) : Res Game :=
  match es with
  | [] => Ok g
  | Click pos :: es' => g' <- handle_click pos g; play es' g'
  | Tick :: es' => g' <- update g; play es' g'
  end.

(** The result of a computation known to return. *)
Definition the {A : Type} (dflt : A) (m : Res A) : A :=
  match m with Ok a => a | Raise _ => dflt end.

(** The session generated from [sample_tape]; the ship stands on (8,9)
    and a hidden Skree on (9,9). *)
Definition sample_session : Game := the defeated_session (new_game sample_tape).

(** The sample session after a click on the Skree's cell and 30 ticks:
    the player has hit the Skree once. *)
Definition sample_play : Game :=
  the defeated_session
    (play (Click (pixel_of 9 9) :: replicate 30 Tick) sample_session).


(** From the sample session: one step onto Crateria, then four reveals of
    Norfair cells that hold no actor, without the Varia Suit. *)
Definition heat_walk : list Event :=
  [Click (pixel_of 7 9); Click (pixel_of 6 9); Click (pixel_of 5 9);
   Click (pixel_of 5 8); Click (pixel_of 7 8)].

(** ** The board under construction *)





(** * Proofs *)

(** ** Player damage *)






(** ** Damage dealt to the player *)

Lemma default_dict_get (d : gmap string Z) (k : string) (dflt : Z) :
  dict_get d k dflt = default dflt (d !! k).
Proof. unfold dict_get. by destruct (d !! k). Qed.

Lemma enemy_attack_energy (tile : Tile) (g : Game) :
  player_energy (enemy_attack tile g).2
  = player_energy g - default 3 (enemy_damage !! item_id tile).
Proof.
  unfold enemy_attack. rewrite default_dict_get.
  cbn [player_energy log_combat set_combat_log set_player_energy].
  by destruct (_ <=? 0).
Qed.

Lemma boss_attack_energy (tile : Tile) (g : Game) :
  player_energy (boss_attack tile g)
  = Z.max 0 (player_energy g - default 10 (boss_damage !! item_id tile)).
Proof.
  unfold boss_attack, get_boss_damage. rewrite default_dict_get.
  cbn [player_energy log_combat set_combat_log set_player_energy].
  destruct (Z.leb_spec (player_energy g - default 10 (boss_damage !! item_id tile)) 0);
    cbn [player_energy log_combat set_combat_log set_player_energy set_game_over]; lia.
Qed.

(** C6, as stated, fails: an enemy whose id is not in the enemy damage
    table takes 3 energy from the player, not 10. *)
Lemma unknown_enemy_deducts_3 :
  enemy_damage !! "zoomer" = None
  /\ player_energy unknown_enemy_fight = 99
  /\ exists g', process_enemy_turns unknown_enemy_fight = Ok g'
                /\ player_energy g' = 96.
Proof. split; [|split]; [reflexivity .. |]. eexists. split; vm_compute; reflexivity. Qed.

(** C6, amended: on the turn of an actor that is revealed, alive and not
    frozen, the player loses the actor's entry of the enemy damage table
    (enemies) or of the boss damage table (bosses); an id missing from the
    table costs 3 for an enemy and 10 for a boss.  A boss hit that leaves
    no energy clamps it to 0. *)
Theorem actor_turn_deduction (x y : Z) (tile : Tile) (g : Game) :
  grid_get (grid g) x y = Ok tile ->
  state tile = FACE_UP -> 0 < health tile -> frozen tile = false ->
  (tile_type tile = ENEMY ->
   exists stop g', enemy_turn (x, y) g = Ok (stop, g')
     /\ player_energy g' = player_energy g - default 3 (enemy_damage !! item_id tile))
  /\ (tile_type tile = BOSS ->
      exists g', boss_turn (x, y) g = Ok g'
        /\ player_energy g'
           = Z.max 0 (player_energy g - default 10 (boss_damage !! item_id tile))).
Proof.
  intros Hget Hst Hhp Hfr. split; intros Hty.
  - exists (enemy_attack tile g).1, (enemy_attack tile g).2. split.
    + unfold enemy_turn. rewrite Hget. cbn [res_bind].
      rewrite Hty, Hst, Hfr.
      rewrite !bool_decide_eq_true_2 by done.
      replace (0 <? health tile) with true by (symmetry; apply Z.ltb_lt; lia).
      cbn. by destruct (enemy_attack tile g).
    + apply enemy_attack_energy.
  - exists (boss_attack tile g). split.
    + unfold boss_turn. rewrite Hget. cbn [res_bind].
      rewrite Hty, Hst, Hfr.
      rewrite !bool_decide_eq_true_2 by done.
      replace (0 <? health tile) with true by (symmetry; apply Z.ltb_lt; lia).
      reflexivity.
    + apply boss_attack_energy.
Qed.

Lemma actor_turn_deduction_witness :
  (exists stop g', enemy_turn (1, 0) unknown_enemy_fight = Ok (stop, g')
     /\ player_energy g' = 99 - 3)
  /\ (exists g', boss_turn (1, 0) boss_fight_25 = Ok g'
        /\ player_energy g' = Z.max 0 (25 - 30)).
Proof.
  split.
  - apply (actor_turn_deduction 1 0
             (revealed_actor 1 0 ENEMY "zoomer" CRATERIA 50) unknown_enemy_fight);
      [reflexivity | reflexivity | reflexivity | reflexivity | reflexivity].
  - apply (actor_turn_deduction 1 0
             (revealed_actor 1 0 BOSS "mother_brain_1" TOURIAN 8000) boss_fight_25);
      [reflexivity | reflexivity | reflexivity | reflexivity | reflexivity].
Defined.

(** ** Unique items picked up twice *)

(** On a click, an item already owned is announced and nothing else
    happens: the inventory and the score stay as they were. *)
Lemma collect_owned_item (tile : Tile) (x y : Z) (g : Game) :
  inventory g !! item_id tile = Some (PyBool true) ->
  exists g', collect_item tile x y g = Ok (true, g')
             /\ inventory g' = inventory g /\ score g' = score g
             /\ player_energy g' = player_energy g.
Proof.
  intros Hown. unfold collect_item, inventory_item. rewrite Hown. cbn.
  eexists. split; [reflexivity |]. done.
Qed.

(** The X-ray path keeps the inventory entry of an item already owned. *)
Lemma auto_grab_owned_inventory (p : Z * Z) (g g' : Game) (tile : Tile) :
  grid_get (grid g) p.1 p.2 = Ok tile ->
  inventory g !! item_id tile = Some (PyBool true) ->
  auto_grab_tile p g = Ok g' ->
  inventory g' = inventory g.
Proof.
  intros Hget Hown. destruct p as [x y]. unfold auto_grab_tile.
  cbn [fst snd] in Hget.
  destruct (negb (in_grid x y)); [by intros [= <-] |].
  rewrite Hget. cbn [res_bind].
  destruct (_ && _); [| by intros [= <-]].
  destruct (_ && _); [by intros [= <-] |].
  unfold inventory_item. cbn [inventory set_revealed_tiles set_grid item_id set_state].
  rewrite Hown. cbn [res_bind isinstance_bool truthy negb].
  intros [= <-].
  unfold norfair_damage, score_item.
  repeat match goal with |- context [if ?b then _ else _] => destruct b end;
    reflexivity.
Qed.


(** ** Norfair heat *)


(** ** The player's cadence *)

Lemma chance_of_inventory (g h : Game) :
  inventory g = inventory h -> get_attack_first_chance g = get_attack_first_chance h.
Proof. unfold get_attack_first_chance. by intros ->. Qed.

(** C8: whenever the coin flip of a tick succeeds while the boss/enemy
    timer does not fire, the tick runs no first strike and still skips the
    player's cadence: the attack timer stands still and no tile is hit. *)
Theorem coin_flip_alone_skips_cadence (g : Game) :
  game_over g = false ->
  Qltb (rng_tape g (rng_pos g)) (get_attack_first_chance g) = true ->
  boss_turn_timer g + 1 < boss_turn_interval ->
  exists g', update g = Ok g'
    /\ player_attack_timer g' = player_attack_timer g
    /\ grid g' = grid g /\ score g' = score g.
Proof.
  intros Hgo Hflip Htimer. unfold update. rewrite Hgo.
  cbn [random_random rng_tape rng_pos set_boss_turn_timer set_max_energy].
  erewrite (chance_of_inventory _ g) by reflexivity.
  rewrite Hflip.
  cbn [boss_turn_timer set_rng_pos set_boss_turn_timer set_max_energy].
  replace (boss_turn_interval <=? boss_turn_timer g + 1) with false
    by (symmetry; apply Z.leb_gt; lia).
  cbn. eexists. split; [reflexivity |]. done.
Qed.

Lemma coin_flip_alone_skips_cadence_witness :
  exists g', update fast_player_fight = Ok g'
    /\ player_attack_timer g' = player_attack_timer fast_player_fight
    /\ grid g' = grid fast_player_fight /\ score g' = score fast_player_fight.
Proof.
  apply (coin_flip_alone_skips_cadence fast_player_fight);
    [reflexivity | vm_compute; reflexivity | vm_compute; reflexivity].
Defined.

(** ** Where the first reveal may go *)




(** ** Reading and writing cells *)

Section Cells.
Context {A : Type}.
Implicit Types (gr : list (list A)) (t : A).

Lemma grid_get_Ok gr x y t :
  grid_get gr x y = Ok t <->
  0 <= x /\ 0 <= y /\
  exists row, gr !! Z.to_nat y = Some row /\ row !! Z.to_nat x = Some t.
Proof.
  unfold grid_get.
  destruct (Z.ltb_spec x 0); [cbn; split; [done | lia] |].
  destruct (Z.ltb_spec y 0); [cbn; split; [done | lia] |].
  cbn. destruct (gr !! Z.to_nat y) as [row |] eqn:Hr.
  - destruct (row !! Z.to_nat x) as [t' |] eqn:Ht.
    + split.
      * intros [= ->]. eauto 6.
      * intros (_ & _ & row' & [= <-] & Ht'). congruence.
    + split; [done |]. intros (_ & _ & row' & [= <-] & Ht'). congruence.
  - split; [done |]. by intros (_ & _ & row' & ? & _).
Qed.






Lemma wf_grid_get gr x y :
  wf_grid gr -> in_grid x y = true -> exists t, grid_get gr x y = Ok t.
Proof.
  intros [Hlen Hrows] Hin. unfold in_grid, GRID_SIZE in Hin.
  apply andb_prop in Hin as [Hin Hy2%Z.ltb_lt].
  apply andb_prop in Hin as [Hin Hy1%Z.leb_le].
  apply andb_prop in Hin as [Hx1%Z.leb_le Hx2%Z.ltb_lt].
  destruct (lookup_lt_is_Some_2 gr (Z.to_nat y)) as [row Hrow]; [lia |].
  pose proof (Forall_lookup_1 _ _ _ _ Hrows Hrow) as Hlr. cbn in Hlr.
  destruct (lookup_lt_is_Some_2 row (Z.to_nat x)) as [t Ht]; [lia |].
  exists t. apply grid_get_Ok. eauto.
Qed.


End Cells.

Lemma elem_of_grid_positions (x y : Z) :
  (x, y) ∈ grid_positions <-> in_grid x y = true.
Proof.
  unfold grid_positions, range, in_grid, GRID_SIZE.
  rewrite list_elem_of_bind. split.
  - intros (y' & Hx & Hy). apply list_elem_of_bind in Hx as (x' & Hp & Hx).
    apply list_elem_of_singleton in Hp as [= -> ->].
    apply elem_of_seqZ in Hx, Hy.
    repeat (apply andb_true_intro; split);
      first [apply Z.leb_le | apply Z.ltb_lt]; lia.
  - intros Hin.
    apply andb_prop in Hin as [Hin Hy2%Z.ltb_lt].
    apply andb_prop in Hin as [Hin Hy1%Z.leb_le].
    apply andb_prop in Hin as [Hx1%Z.leb_le Hx2%Z.ltb_lt].
    exists y. split; [| apply elem_of_seqZ; lia].
    apply list_elem_of_bind. exists x. split; [by apply list_elem_of_singleton |].
    apply elem_of_seqZ. lia.
Qed.


(** ** Tile relations *)













(** ** Loops *)




(** ** The invariant under changes of the board *)




(** ** The player's attack *)
















(** ** The actors' turns *)






(** ** A tick *)


(** ** A click *)


Lemma any_tile_returns (p : Tile -> bool) gr ps :
  wf_grid gr -> Forall (fun q : Z * Z => in_grid q.1 q.2 = true) ps ->
  exists b, any_tile p gr ps = Ok b.
Proof.
  intros Hwf. induction 1 as [| [x y] ps Hin Hps IH]; cbn; [eauto |].
  destruct (wf_grid_get gr x y Hwf Hin) as [t ->]. cbn.
  destruct (p t); eauto.
Qed.

Lemma grid_positions_in_grid :
  Forall (fun q : Z * Z => in_grid q.1 q.2 = true) grid_positions.
Proof. apply Forall_forall. intros [x y] Hin. by apply elem_of_grid_positions. Qed.

Lemma is_fight_active_returns g :
  wf_grid (grid g) -> exists b, is_fight_active g = Ok b.
Proof. intros Hwf. apply any_tile_returns; [done | apply grid_positions_in_grid]. Qed.















Lemma clicked_cell_in_grid pos x y :
  clicked_cell pos = Some (x, y) -> in_grid x y = true.
Proof.
  unfold clicked_cell, in_grid, GRID_START_X, GRID_START_Y, GRID_SIZE, TILE_SIZE.
  destruct (_ && _) eqn:Hb; [| done]. intros [= <- <-].
  apply andb_prop in Hb as [Hb Hy2%Z.ltb_lt].
  apply andb_prop in Hb as [Hb Hy1%Z.leb_le].
  apply andb_prop in Hb as [Hx1%Z.leb_le Hx2%Z.ltb_lt].
  repeat (apply andb_true_intro; split);
    first [apply Z.leb_le; apply Z.div_pos; lia
          | apply Z.ltb_lt; apply Z.div_lt_upper_bound; lia].
Qed.




(** ** Generated boards *)


Lemma choice_frame {A : Type} tape (l : list A) pos a pos' :
  choice tape l pos = Ok (a, pos') -> a ∈ l.
Proof.
  unfold choice, randbelow.
  destruct (l !! _) as [a' |] eqn:Ha; [| done]. intros [= <- <-].
  by eapply list_elem_of_lookup_2.
Qed.

















(** A session produced by [new_game] is a generated one. *)
Lemma new_game_generated tape g : new_game tape = Ok g -> generated g.
Proof.
  unfold new_game, populate_grid. cbn [draws cells revealed log empty_board].
  destruct (for_each (place_area tape) all_area_types _) as [[am pos] |]; [| done].
  cbn [res_bind].
  destruct (populate_from tape (fill_crateria am) _) as [bd |] eqn:Hpop; [| done].
  cbn [res_bind]. intros Hgame.
  exists tape, (fill_crateria am), pos, bd. done.
Qed.

(** ** Reachable sessions *)





Lemma play_steps es : forall g g', play es g = Ok g' -> rtc step g g'.
Proof.
  induction es as [| [pos |] es IH]; intros g g'; cbn [play].
  - intros [= <-]. apply rtc_refl.
  - destruct (handle_click pos g) as [g1 |] eqn:Hc; [| done]. cbn [res_bind].
    intros Hrest. eapply rtc_l; [by eapply step_click | by apply IH].
  - destruct (update g) as [g1 |] eqn:Hu; [| done]. cbn [res_bind].
    intros Hrest. eapply rtc_l; [by eapply step_tick | by apply IH].
Qed.


(** The sample play did hit the Skree: 75 health became 65. *)
Example sample_play_skree :
  exists t', grid_get (grid sample_play) 9 9 = Ok t'
    /\ state t' = FACE_UP /\ health t' = 65.
Proof. eexists. split; [vm_compute; reflexivity |]. split; reflexivity. Qed.

(** ** Reveal attempts that are turned down *)

Lemma clicked_cell_Some pos x y :
  clicked_cell pos = Some (x, y) ->
  ((GRID_START_X <=? pos.1) && (pos.1 <? GRID_START_X + GRID_SIZE * TILE_SIZE)
   && (GRID_START_Y <=? pos.2) && (pos.2 <? GRID_START_Y + GRID_SIZE * TILE_SIZE)) = true
  /\ x = (pos.1 - GRID_START_X) / TILE_SIZE
  /\ y = (pos.2 - GRID_START_Y) / TILE_SIZE.
Proof.
  unfold clicked_cell. destruct (_ && _); [| done]. by intros [= <- <-].
Qed.

(** C9: a reveal attempt during a fight, on a tile that is not hidden, on
    a cell not next to the reveal set, or on a Maridia tile without the
    Gravity Suit returns without an exception and leaves the grid, the
    reveal set, the inventory, the energy and the score as they were;
    nothing but the combat log (the Maridia notice) can differ. *)
Theorem illegal_reveal_rejected (pos : Z * Z) (g : Game) :
  wf_grid (grid g) -> illegal_reveal pos g ->
  exists g', handle_click pos g = Ok g'
    /\ grid g' = grid g /\ revealed_tiles g' = revealed_tiles g
    /\ inventory g' = inventory g /\ player_energy g' = player_energy g
    /\ score g' = score g
    /\ g' = set_combat_log (combat_log g') g.
Proof.
  intros Hwf Hill.
  assert (Hsame : exists g', Ok g = Ok g'
    /\ grid g' = grid g /\ revealed_tiles g' = revealed_tiles g
    /\ inventory g' = inventory g /\ player_energy g' = player_energy g
    /\ score g' = score g /\ g' = set_combat_log (combat_log g') g).
  { exists g. repeat (split; [done |]). by destruct g. }
  unfold handle_click.
  destruct (is_fight_active_returns g Hwf) as [fight Hfight]. rewrite Hfight.
  cbn [res_bind]. destruct fight; [exact Hsame |].
  destruct Hill as [Hf | (gx & gy & tile & Hcell & Hget & Hwhy)]; [congruence |].
  destruct pos as [px py].
  apply clicked_cell_Some in Hcell as (Hbounds & -> & ->). cbn [fst snd] in *.
  rewrite Hbounds, Hget. cbn [res_bind].
  destruct (bool_decide (state tile = FACE_DOWN)) eqn:Hdown; [| exact Hsame].
  cbn [andb]. destruct (can_click_tile _ _ g) eqn:Hcan; [| exact Hsame].
  destruct Hwhy as [Hs | [Hc | [Ha Hgrav]]].
  - by apply bool_decide_eq_true in Hdown.
  - congruence.
  - rewrite Ha, Hgrav. rewrite bool_decide_eq_true_2 by done. cbn [andb negb].
    eexists. split; [reflexivity |]. repeat (split; [done |]). by destruct g.
Qed.

Lemma illegal_reveal_rejected_witness :
  exists g', handle_click (pixel_of 1 0) maridia_locked = Ok g'
    /\ grid g' = grid maridia_locked
    /\ revealed_tiles g' = revealed_tiles maridia_locked
    /\ inventory g' = inventory maridia_locked
    /\ player_energy g' = player_energy maridia_locked
    /\ score g' = score maridia_locked
    /\ g' = set_combat_log (combat_log g') maridia_locked.
Proof.
  apply (illegal_reveal_rejected (pixel_of 1 0) maridia_locked).
  - split; [reflexivity | repeat constructor].
  - right. exists 1, 0, (new_tile 1 0 EMPTY "" MARIDIA).
    split; [reflexivity |]. split; [reflexivity |].
    right. right. split; reflexivity.
Defined.

(** ** Clicks after game-over *)









(** ** Reveals return *)









(** After game-over the click on the energy tank still collects it: the
    score rises by 50 and the energy goes from 0 to the new maximum. *)
Example click_after_defeat :
  game_over defeated_session = true /\ player_energy defeated_session = 0
  /\ exists g', handle_click (pixel_of 1 0) defeated_session = Ok g'
       /\ inventory g' !! "energy_tank" = Some (PyInt 1)
       /\ score g' = 50 /\ player_energy g' = 199.
Proof.
  split; [reflexivity |]. split; [reflexivity |].
  eexists. split; [vm_compute; reflexivity |]. split; [reflexivity |]. split; reflexivity.
Qed.

(** ** Energy below zero *)

Lemma norfair_damage_hit tile g :
  area tile = NORFAIR -> inv_flag (inventory g) "varia" = false ->
  player_energy (norfair_damage tile g) = player_energy g - 25
  /\ (player_energy g - 25 <= 0 -> game_over (norfair_damage tile g) = true).
Proof.
  intros Ha Hv. unfold norfair_damage. rewrite Ha, Hv.
  rewrite bool_decide_eq_true_2 by done. cbn.
  destruct (Z.leb_spec (player_energy g - 25) 0); cbn; split; try done; lia.
Qed.

Lemma sample_session_generated : generated sample_session.
Proof. apply (new_game_generated sample_tape). vm_compute. reflexivity. Qed.

(** C2: enemy hits and Norfair heat leave the energy below zero, where a
    boss hit clamps it.  In the session generated from [sample_tape], five
    clicks (four of them on Norfair cells) end with energy -1; at energy 2
    a Skree's 4 damage ends the tick with energy -2; at energy 25 Mother
    Brain's 30 damage ends with energy 0.  Game-over is set in all three. *)
Theorem energy_goes_negative :
  (exists g', play heat_walk sample_session = Ok g' /\ reachable g'
              /\ player_energy g' = -1 /\ game_over g' = true)
  /\ (exists g', update low_energy_fight = Ok g'
                 /\ player_energy g' = -2 /\ game_over g' = true)
  /\ (exists g', process_boss_turns boss_fight_25 = Ok g'
                 /\ player_energy g' = 0 /\ game_over g' = true).
Proof.
  split; [| split].
  - assert (Hplay : play heat_walk sample_session
                    = Ok (the defeated_session (play heat_walk sample_session)))
      by (vm_compute; reflexivity).
    eexists. split; [exact Hplay |]. split; [| split; vm_compute; reflexivity].
    exists sample_session. split; [apply sample_session_generated |].
    by apply (play_steps heat_walk).
  - eexists. split; [vm_compute; reflexivity |]. split; reflexivity.
  - eexists. split; [vm_compute; reflexivity |]. split; reflexivity.
Qed.
